(** * tf2onnx.rewriter.rnn_utils: a shallow embedding and its properties

    The development follows [tf2onnx/rewriter/rnn_utils.py]: the helper
    classes of the RNN rewriter, the LSTM-cell match pattern, the pattern
    table, the constant resolver [get_weights_from_const_node] and the
    time-major checks [check_is_timemajor_transpose] and
    [check_is_unfolded_perm]. *)

From Stdlib Require Import ZArith.
From stdpp Require Import base option list strings pretty gmap.

Local Open Scope string_scope.

(** ** Python results: a value or a raised exception *)

Inductive exn : Type :=
  | IndexError
  | KeyError
  | ValueError (msg : string).

Inductive Result (A : Type) : Type :=
  | Return (a : A)
  | Raise (e : exn).
Arguments Return {A} a.
Arguments Raise {A} e.

#[global] Instance Result_ret : MRet Result := λ A a, Return a.
#[global] Instance Result_bind : MBind Result := λ A B f m,
  match m with
  | Return a => f a
  | Raise e => Raise e
  end.

Definition raises {A} (m : Result A) : Prop := ∃ e, m = Raise e.

(** What a Python function whose exits are [return True], [return False]
    and a bare [return] hands back. *)
Inductive pyret : Type :=
  | PyNone
  | PyBool (b : bool).

(** Python truthiness of such a result: [None] and [False] are falsy. *)
Definition truthy (r : pyret) : bool :=
  match r with
  | PyNone => false
  | PyBool b => b
  end.

(** [l[i]] for a non-negative literal index: [IndexError] out of range. *)
Definition index {A} (l : list A) (i : nat) : Result A :=
  match l !! i with
  | Some x => Return x
  | None => Raise IndexError
  end.

(** ** Graph nodes *)

(** The data of a constant tensor, as the sequence that Python's [list()]
    yields from it.  The checks below only compare integer vectors. *)
Definition Tensor : Type := list Z.

(** Modelled from the spec: the class [Node] of [tf2onnx.graph] is not part
    of the sources at hand.  Per the data model a node has a name, an
    operation-type tag, an ordered sequence of inputs (here already
    resolved to their producing nodes, the graph being acyclic), a declared
    element type, and, for constant-producing nodes, an embedded constant
    tensor. *)
#[warnings="-register-all"]
Inductive Node : Type := mkNode {
  name : string;
  type : string;
  dtype : Z;
  tensor : option Tensor;
  inputs : list Node
}.

(** Modelled from the spec: [Node.is_const] of [tf2onnx.graph]; a
    constant-producing node is one whose operation-type tag is ["Const"]. *)
Definition is_const (n : Node) : bool := bool_decide (type n = "Const").

(** Modelled from the spec: [Node.get_tensor_value] of [tf2onnx.graph];
    it reads the embedded constant tensor, which only constant-producing
    nodes carry, and raises for every other node. *)
Definition get_tensor_value (n : Node) : Result Tensor :=
  if is_const n then
    match tensor n with
    | Some t => Return t
    | None => Raise (ValueError "get tensor value: no tensor data")
    end
  else Raise (ValueError "get tensor value: must be Const").

(** ** Time-major detection *)

(** The truth value of [v == [k]] for a tensor value [v], as line 185
    takes it.  The comparison is element by element and gives an array of
    the size of [v]; the truth value of an array of one element is that of
    the element, that of an array of more than one element is refused with
    a [ValueError], and that of an empty array is [False] in the numpy
    releases of the time of the sources. *)
Definition eq_truth (v : Tensor) (k : Z) : Result bool :=
  match v with
  | [] => Return false
  | [x] => Return (bool_decide (x = k))
  | _ :: _ :: _ =>
      Raise (ValueError "The truth value of an array with more than one element is ambiguous. Use a.any() or a.all()")
  end.

(** [a and b]: [b] is only looked at when [a] is true. *)
Definition and_then (a b : Result bool) : Result bool :=
  x ← a; match x with true => b | false => Return false end.

(** [check_is_unfolded_perm], lines 172-189. *)
Definition check_is_unfolded_perm (perm_node : Node) : Result bool :=
  if bool_decide (type perm_node = "ConcatV2")
     && bool_decide (length (inputs perm_node) = 3)
  then
    in0 ← index (inputs perm_node) 0;
    const_node_val ← get_tensor_value in0;
    if bool_decide (const_node_val ≠ [1; 0]%Z) then Return false
    else
      range_node ← index (inputs perm_node) 1;
      start_node ← index (inputs range_node) 0;
      range_start ← get_tensor_value start_node;
      limit_node ← index (inputs range_node) 1;
      range_limit ← get_tensor_value limit_node;
      delta_node ← index (inputs range_node) 2;
      range_delta ← get_tensor_value delta_node;
      and_then (Return (bool_decide (type range_node = "Range")))
        (and_then (eq_truth range_start 2)
           (and_then (eq_truth range_limit 3) (eq_truth range_delta 1)))
  else Return false.

(** [check_is_timemajor_transpose], lines 154-168. *)
Definition check_is_timemajor_transpose (node : Node) : Result pyret :=
  if bool_decide (type node ≠ "Transpose") then Return PyNone
  else
    perm_node ← index (inputs node) 1;
    if is_const perm_node then
      in1 ← index (inputs node) 1;
      perm ← get_tensor_value in1;
      if bool_decide (perm = [1; 0; 2]%Z) then Return (PyBool true)
      else Return PyNone
    else
      unfolded ← check_is_unfolded_perm perm_node;
      match unfolded with
      | true => Return (PyBool true)
      | false => Raise (ValueError "Not supported yet")
      end.

(** ** Logging *)

(** The levels used by the module; [logging.basicConfig(level=logging.INFO)]
    sets the threshold below which a record is dropped. *)
Inductive level : Type := DEBUG | INFO | ERROR.

Definition level_no (l : level) : nat :=
  match l with
  | DEBUG => 10
  | INFO => 20
  | ERROR => 40
  end.

Record LogRecord : Type := mkLogRecord {
  levelname : level;
  msg : string
}.

(** ** Code that raises and writes to the log *)

(** A computation over a state [S] (the records handled so far) that
    returns or raises. *)
Definition Exec (S A : Type) : Type := S → Result A * S.

#[global] Instance Exec_ret {S} : MRet (Exec S) := λ A a s, (Return a, s).
#[global] Instance Exec_bind {S} : MBind (Exec S) := λ A B f m s,
  match m s with
  | (Return a, s') => f a s'
  | (Raise e, s') => (Raise e, s')
  end.

Definition lift {S A} (r : Result A) : Exec S A := λ s, (r, s).

Definition basicConfig_level : level := INFO.

Definition log_at (l : level) (m : string) : Exec (list LogRecord) unit :=
  λ records,
    if bool_decide (level_no basicConfig_level ≤ level_no l)%nat
    then (Return (), (records ++ [mkLogRecord l m])%list)
    else (Return (), records).

Definition log_debug : string → Exec (list LogRecord) unit := log_at DEBUG.
Definition log_error : string → Exec (list LogRecord) unit := log_at ERROR.

(** [d[k]] for a dict: [KeyError] when the key is absent. *)
Definition getitem `{Countable K} {V} (d : gmap K V) (k : K) : Result V :=
  match d !! k with
  | Some v => Return v
  | None => Raise KeyError
  end.

(** ** The helper classes *)

Module RnnWeight.
(** [class RnnWeight], lines 25-29; [D] is the type of numpy dtypes. *)
Record t (D : Type) : Type := mk {
  node : Node;
  value : Tensor;
  dtype : D
}.
Arguments mk {D} node value dtype.
Arguments node {D} _.
Arguments value {D} _.
Arguments dtype {D} _.
End RnnWeight.

(** Python truthiness of an argument that is [None] or a string. *)
Definition truthy_id (x : option string) : bool :=
  match x with
  | None => false
  | Some s => bool_decide (s ≠ "")
  end.

Module RnnInitializers.
(** The attributes of an [RnnInitializers] object; input ids are strings,
    [None] is Python's [None]. *)
Record t : Type := mk {
  c_init_input_id : option string;
  h_init_input_id : option string;
  share_init_node : option bool;
  share_init_input_id : option string
}.

Definition set_c_init_input_id (v : option string) (self : t) : t :=
  mk v (h_init_input_id self) (share_init_node self) (share_init_input_id self).
Definition set_h_init_input_id (v : option string) (self : t) : t :=
  mk (c_init_input_id self) v (share_init_node self) (share_init_input_id self).
Definition set_share_init_node (v : option bool) (self : t) : t :=
  mk (c_init_input_id self) (h_init_input_id self) v (share_init_input_id self).
Definition set_share_init_input_id (v : option string) (self : t) : t :=
  mk (c_init_input_id self) (h_init_input_id self) (share_init_node self) v.

(** [RnnInitializers.__init__], lines 40-52: the four attributes are
    first set to [None], then one of the two branches fills its own. *)
Definition init (c_init h_init c_h_shared_init : option string) : t :=
  let self := mk None None None None in
  if truthy_id c_h_shared_init then
    let self := set_share_init_input_id c_h_shared_init self in
    set_share_init_node (Some true) self
  else
    let self := set_c_init_input_id c_init self in
    let self := set_h_init_input_id h_init self in
    set_share_init_node (Some false) self.
End RnnInitializers.

(** ** The constant resolver *)

(** The loop of lines 140-141: [while temp.type == 'Identity':
    temp = temp.inputs[0]]. It ends because a node's inputs are strictly
    smaller than the node. *)
Fixpoint skip_identity (temp : Node) : Result Node :=
  if bool_decide (type temp = "Identity") then
    match inputs temp with
    | [] => Raise IndexError
    | temp' :: _ => skip_identity temp'
    end
  else Return temp.

Section Resolver.
(** The table [utils.ONNX_TO_NUMPY_DTYPE] is declared outside the sources
    at hand: a dict from ONNX element types to numpy dtypes. *)
Context {D : Type} (ONNX_TO_NUMPY_DTYPE : gmap Z D).

(** [get_weights_from_const_node], lines 135-151. The result is [None]
    for the bare [return]. *)
Definition get_weights_from_const_node (node : Node)
  : Exec (list LogRecord) (option (RnnWeight.t D)) :=
  temp ← lift (skip_identity node);
  if bool_decide (type temp = "Const") then
    val ← lift (get_tensor_value temp);
    dtype ← lift (getitem ONNX_TO_NUMPY_DTYPE (dtype temp));
    _ ← log_debug ("found weights " +:+ name temp);
    mret (Some (RnnWeight.mk node val dtype))
  else
    _ ← log_error ("weight node seems not to be Const, skip, node name is "
                   +:+ name temp);
    mret None.
End Resolver.

(** ** Match patterns *)

(** A pattern object is referred to by its address in the store of
    pattern objects; two references denote the identical object exactly
    when they are equal. *)
Definition ref : Type := nat.

Module OpTypePattern.
(** Modelled from the spec: the class [OpTypePattern] of
    [tf2onnx.graph_matcher] is not part of the sources at hand.  A pattern
    node has a type matcher (an exact type, the wildcard ["*"] or an
    alternation ["A|B"]), an optional capture name and an ordered list of
    child patterns. *)
Record t : Type := mk {
  op_type : string;
  name : option string;
  inputs : list ref
}.
End OpTypePattern.

Definition Store : Type := list OpTypePattern.t.

(** The constructor call [OpTypePattern(op_type, name=..., inputs=[...])]:
    a fresh object is added to the store and its reference returned.  The
    arguments of a call are evaluated before the call, so the children of
    a pattern are allocated before the pattern itself, left to right. *)
Definition OpTypePattern_new (op_type : string) (name : option string)
    (inputs : list ref) : Exec Store ref :=
  λ σ, (Return (length σ), (σ ++ [OpTypePattern.mk op_type name inputs])%list).

(** [xc_pattern], lines 82-95. *)
Definition make_xc_pattern : Exec Store ref :=
  axis ← OpTypePattern_new "Const" None [];
  xh ← OpTypePattern_new "ConcatV2|Concat" (Some "xh") [];
  cell_kernel ← OpTypePattern_new "*" (Some "cell_kernel") [];
  enter_kernel ← OpTypePattern_new "Enter" None [cell_kernel];
  matmul ← OpTypePattern_new "MatMul" None [xh; enter_kernel];
  cell_bias ← OpTypePattern_new "*" (Some "cell_bias") [];
  enter_bias ← OpTypePattern_new "Enter" None [cell_bias];
  bias_add ← OpTypePattern_new "BiasAdd" (Some "bias_add") [matmul; enter_bias];
  OpTypePattern_new "Split" None [axis; bias_add].

(** [lstmcell_pattern], lines 98-118; [xc_pattern] is the value of the
    module variable of that name. *)
Definition make_lstmcell_pattern (xc_pattern : ref) : Exec Store ref :=
  ot ← OpTypePattern_new "Sigmoid" (Some "ot") [xc_pattern];
  ft_bias ← OpTypePattern_new "*" (Some "ft_bias") [];
  ft_add ← OpTypePattern_new "Add" None [xc_pattern; ft_bias];
  ft ← OpTypePattern_new "Sigmoid" (Some "ft") [ft_add];
  c_prev ← OpTypePattern_new "*" None [];
  ft_mul ← OpTypePattern_new "Mul" None [ft; c_prev];
  it ← OpTypePattern_new "Sigmoid" (Some "it") [xc_pattern];
  gt ← OpTypePattern_new "Tanh" (Some "gt") [xc_pattern];
  it_mul ← OpTypePattern_new "Mul" None [it; gt];
  ct ← OpTypePattern_new "Add" (Some "ct") [ft_mul; it_mul];
  tanh_ct ← OpTypePattern_new "Tanh" None [ct];
  OpTypePattern_new "Mul" (Some "ht") [ot; tanh_ct].

(** [class RNNUnitType(Enum)], lines 120-122. *)
Inductive RNNUnitType : Type := LSTMCell | GRUCell.

Definition RNNUnitType_value (u : RNNUnitType) : nat :=
  match u with
  | LSTMCell => 0
  | GRUCell => 1
  end.

Definition RNNUnitType_of_value (n : nat) : option RNNUnitType :=
  match n with
  | 0 => Some LSTMCell
  | 1 => Some GRUCell
  | _ => None
  end.

#[global] Instance RNNUnitType_eq_dec : EqDecision RNNUnitType.
Proof. solve_decision. Defined.
#[global] Instance RNNUnitType_countable : Countable RNNUnitType.
Proof.
  apply (inj_countable RNNUnitType_value RNNUnitType_of_value).
  intros []; reflexivity.
Defined.

(** The module-level variables that hold patterns, after the module body
    has run. *)
Record Module_vars : Type := mkModule_vars {
  xc_pattern : ref;
  lstmcell_pattern : ref;
  rnn_cell_patterns : gmap RNNUnitType (option ref)
}.

(** The module body, lines 82-128, run on a store of pattern objects. *)
Definition module_body : Exec Store Module_vars :=
  xc ← make_xc_pattern;
  lstm ← make_lstmcell_pattern xc;
  mret (mkModule_vars xc lstm
          (<[LSTMCell := Some lstm]> (<[GRUCell := None]> ∅))).

(** [get_pattern], lines 131-132. *)
Definition get_pattern (vars : Module_vars) (cell_type_name : RNNUnitType)
    : Result (option ref) :=
  getitem (rnn_cell_patterns vars) cell_type_name.

(** Reading the store. *)
Definition deref (σ : Store) (r : ref) : option OpTypePattern.t := σ !! r.

(** The tree an object unfolds to, sharing forgotten; [fuel] bounds the
    depth. *)
#[warnings="-register-all"]
Inductive PatternTree : Type :=
  | PNode (op_type : string) (name : option string) (inputs : list PatternTree).

Fixpoint unfold_pattern (fuel : nat) (σ : Store) (r : ref) : option PatternTree :=
  match fuel with
  | O => None
  | S fuel =>
      p ← deref σ r;
      children ← mapM (unfold_pattern fuel σ) (OpTypePattern.inputs p);
      Some (PNode (OpTypePattern.op_type p) (OpTypePattern.name p) children)
  end.

(** The references of the objects stored under a capture name. *)
Definition captured (σ : Store) (capture : string) : list ref :=
  filter (λ r, (OpTypePattern.name <$> deref σ r) = Some (Some capture))
         (seq 0 (length σ)).

(** The references of the objects with a given type matcher. *)
Definition of_op_type (σ : Store) (op : string) : list ref :=
  filter (λ r, (OpTypePattern.op_type <$> deref σ r) = Some op)
         (seq 0 (length σ)).

(** [target] is the object at [r] or one of its descendants, at depth at
    most [fuel]. *)
Fixpoint reaches (fuel : nat) (σ : Store) (target r : ref) : bool :=
  bool_decide (r = target) ||
  match fuel with
  | O => false
  | S fuel =>
      match deref σ r with
      | Some p => existsb (reaches fuel σ target) (OpTypePattern.inputs p)
      | None => false
      end
  end.

(** ** tests/test_gru.py *)

Module GRUTests.
(** [test_test_single_dynamic_gru_state_is_tuple], lines 15-16. *)
Definition test_test_single_dynamic_gru_state_is_tuple : Result unit :=
  Raise (ValueError "Not implemented").

(** The test methods that the class declares. *)
Definition tests : list (string * Result unit) :=
  [("test_test_single_dynamic_gru_state_is_tuple",
    test_test_single_dynamic_gru_state_is_tuple)].
End GRUTests.

(** ** Shapes of permutation inputs *)

(** [n] is a constant whose value is [v]. *)
Definition const_equal (n : Node) (v : Tensor) : Prop :=
  get_tensor_value n = Return v.

(** [r] has (at least) three inputs and each of the first three is a
    constant. *)
Definition three_const_inputs (r : Node) : Prop :=
  ∃ s l d vs vl vd,
    inputs r !! 0 = Some s ∧ inputs r !! 1 = Some l ∧ inputs r !! 2 = Some d ∧
    const_equal s vs ∧ const_equal l vl ∧ const_equal d vd.

(** [r] is a range operation over the constants [start], [limit],
    [delta]. *)
Definition range_of (r : Node) (start limit delta : Tensor) : Prop :=
  type r = "Range" ∧
  ∃ s l d,
    inputs r !! 0 = Some s ∧ inputs r !! 1 = Some l ∧ inputs r !! 2 = Some d ∧
    const_equal s start ∧ const_equal l limit ∧ const_equal d delta.

(** [n] concatenates the two operands [a] and [b] (the third input of a
    [ConcatV2] is the axis). *)
Definition concat_of (n a b : Node) : Prop :=
  type n = "ConcatV2" ∧ ∃ axis, inputs n = [a; b; axis].

(** The indirect form of the permutation [[1, 0, 2]]. *)
Definition unfolded_perm_form (n : Node) : Prop :=
  ∃ a b, concat_of n a b ∧ const_equal a [1; 0]%Z ∧
         range_of b [2]%Z [3]%Z [1]%Z.

(** ** Sample graphs *)

Definition Const_node (nm : string) (v : Tensor) : Node :=
  mkNode nm "Const" 6 (Some v) [].

Definition Placeholder_node (nm : string) : Node :=
  mkNode nm "Placeholder" 1 None [].

Definition Range_node (start limit delta : Z) : Node :=
  mkNode "range" "Range" 6 None
    [Const_node "range/start" [start]; Const_node "range/limit" [limit];
     Const_node "range/delta" [delta]].

Definition ConcatV2_node (a b : Node) : Node :=
  mkNode "concat" "ConcatV2" 6 None [a; b; Const_node "concat/axis" [0%Z]].

Definition Transpose_node (perm : Node) : Node :=
  mkNode "transpose" "Transpose" 1 None [Placeholder_node "x"; perm].

Definition Identity_node (nm : string) (x : Node) : Node :=
  mkNode nm "Identity" 1 None [x].

(** [concat([1, 0], range(2, 3, 1))], the shape the heuristic knows. *)
Definition perm_unfolded : Node :=
  ConcatV2_node (Const_node "concat/values_0" [1; 0]%Z) (Range_node 2 3 1).

(** [concat([1, 0], range(0, 5, 1))]. *)
Definition perm_range_0_5 : Node :=
  ConcatV2_node (Const_node "concat/values_0" [1; 0]%Z) (Range_node 0 5 1).

(** [concat([1, 0], [2])], a concatenation of two constants. *)
Definition perm_concat_consts : Node :=
  ConcatV2_node (Const_node "concat/values_0" [1; 0]%Z)
                (Const_node "concat/values_1" [2]%Z).

(** A constant permutation other than [[1, 0, 2]] and its transpose. *)
Definition perm_const_0_1_2 : Node := Const_node "perm" [0; 1; 2]%Z.
Definition transpose_0_1_2 : Node := Transpose_node perm_const_0_1_2.

(** A kernel of three values behind three [Identity] nodes. *)
Definition kernel_const : Node := Const_node "kernel" [1; 2; 3]%Z.
Definition kernel_read : Node :=
  Identity_node "kernel/read_2"
    (Identity_node "kernel/read_1" (Identity_node "kernel/read" kernel_const)).

Definition sample_dtypes : gmap Z string :=
  <[1%Z := "float32"]> (<[6%Z := "int32"]> ∅).

(** ** Identity chains *)

(** [identity_chain n p]: [n] heads a chain of zero or more [Identity]
    nodes, each feeding on the next through its first input, and [p] is
    the first producer on it that is not an [Identity]. *)
Inductive identity_chain : Node → Node → Prop :=
  | chain_end n :
      type n ≠ "Identity" → identity_chain n n
  | chain_step n n' p :
      type n = "Identity" → inputs n !! 0 = Some n' →
      identity_chain n' p → identity_chain n p.

(** ** RnnProperties *)

(** The result of code whose only failure is a [TypeError]. *)
Inductive TypeErrorOr (A : Type) : Type :=
  | NoError (a : A)
  | TypeError.
Arguments NoError {A} a.
Arguments TypeError {A}.

(** [a + b] for a string [a] and a [b] that is a string or [None]:
    concatenating [None] to a string raises [TypeError]. *)
Definition str_add (a : string) (b : option string) : TypeErrorOr string :=
  match b with
  | Some s => NoError (a +:+ s)
  | None => TypeError
  end.

Module RnnProperties.
(** The attributes of an [RnnProperties] object, lines 56-69. *)
Record t : Type := mk {
  input_node : option Node;
  input_id : option string;
  var_initializers : gmap string string;
  onnx_input_ids : gmap string string;
  time_major : bool;
  x_input_id : option string;
  input_size : option Z;
  hidden_size : option Z;
  batch_size_node : option Node
}.

(** [RnnProperties.__init__], lines 56-69. *)
Definition init : t := mk None None ∅ ∅ false None None None None.

(** [RnnProperties.is_valid], lines 71-78.  The argument of [log.debug] is
    computed before the call, whether or not the record is then dropped. *)
Definition is_valid (self : t)
    : list LogRecord → TypeErrorOr bool * list LogRecord :=
  λ records,
    match input_node self with
    | None =>
        let '(_, records) :=
          log_error "no input node found for current rnn, skip" records in
        (NoError false, records)
    | Some _ =>
        match str_add "input node with port id " (input_id self) with
        | TypeError => (TypeError, records)
        | NoError m =>
            let '(_, records) := log_debug m records in
            (NoError true, records)
        end
    end.
End RnnProperties.

(** ** make_onnx_node and is_reverse_op *)

Module OnnxNode.
(** What [make_onnx_node] hands to [helper.make_node] and [Node]: the
    operation type, the input and output ids, the name, the attributes and
    the [skip_conversion] flag. *)
Record t (V : Type) : Type := mk {
  op_type : string;
  input : list string;
  output : list string;
  name : string;
  attr : gmap string V;
  skip_conversion : bool
}.
Arguments mk {V} op_type input output name attr skip_conversion.
Arguments op_type {V} _.
Arguments input {V} _.
Arguments output {V} _.
Arguments name {V} _.
Arguments attr {V} _.
Arguments skip_conversion {V} _.
End OnnxNode.


Section MakeNode.
(** [utils.make_name] is declared outside the sources at hand: it draws a
    fresh name for an operation type from a state [S]. *)
Context {S V : Type} (make_name : string → S → string * S).

End MakeNode.

(** [is_reverse_op], lines 204-205. *)
Definition is_reverse_op (op : Node) : bool :=
  bool_decide (type op ∈ ["ReverseV2"; "ReverseSequence"]).

(** ** Chains that do not end *)

(** [broken_chain n]: the chain of [Identity] nodes that [n] heads ends in
    an [Identity] without inputs. *)
Inductive broken_chain : Node → Prop :=
  | broken_end n :
      type n = "Identity" → inputs n = [] → broken_chain n
  | broken_step n n' :
      type n = "Identity" → inputs n !! 0 = Some n' →
      broken_chain n' → broken_chain n.

(** ** The objects of the pattern store *)

(** Every input of every object refers to an object allocated before it:
    no reference dangles and none closes a cycle. *)
Definition store_wf (σ : Store) : Prop :=
  ∀ r p, deref σ r = Some p → Forall (λ r', r' < r) (OpTypePattern.inputs p).

(** The capture names carried by the objects of the store, in allocation
    order. *)
Definition capture_names (σ : Store) : list string :=
  omap OpTypePattern.name σ.

(** The number of nodes of an unfolded pattern. *)
Fixpoint tree_size (t : PatternTree) : nat :=
  match t with
  | PNode _ _ children => S (foldr (λ c n, tree_size c + n) 0 children)
  end.

(** ** tests/test_backend.py: the convolution test data *)

(** One case: padding, input sizes, filter sizes, strides. *)
Definition ConvCase : Type := string * list Z * list Z * list Z.

(** The lists of [dims], lines 53-58; [itertools.product] runs through
    them with the last one varying fastest. *)
Definition conv_paddings : list string := ["SAME"; "VALID"].
Definition conv_input_sizes : list (list Z) :=
  [[32; 35; 35; 288]; [32; 17; 17; 1248]; [1; 28; 28; 3]; [32; 8; 8; 2048]]%Z.
Definition conv_filter_sizes : list (list Z) :=
  [[1; 3; 3; 1]; [1; 2; 2; 1]; [1; 5; 5; 1]; [1; 1; 1; 1]; [1; 5; 2; 1];
   [1; 2; 5; 1]]%Z.
Definition conv_strides : list (list Z) := [[1; 2; 2; 1]; [1; 1; 1; 1]]%Z.

Definition conv_product : list ConvCase :=
  p ← conv_paddings; i ← conv_input_sizes; f ← conv_filter_sizes;
  s ← conv_strides; [(p, i, f, s)].

(** The list [data], lines 66-84. *)
Definition conv_data : list ConvCase :=
  [("SAME", [32; 35; 35; 288], [1; 3; 3; 1], [1; 2; 2; 1]);
   ("SAME", [32; 35; 35; 288], [1; 2; 2; 1], [1; 2; 2; 1]);
   ("SAME", [32; 35; 35; 288], [1; 1; 1; 1], [1; 1; 1; 1]);
   ("SAME", [32; 35; 35; 288], [1; 5; 2; 1], [1; 2; 2; 1]);
   ("SAME", [32; 35; 35; 288], [1; 2; 5; 1], [1; 2; 2; 1]);
   ("SAME", [32; 35; 35; 288], [1; 2; 5; 1], [1; 1; 1; 1]);
   ("SAME", [1; 28; 28; 3], [1; 3; 3; 1], [1; 2; 2; 1]);
   ("SAME", [1; 28; 28; 3], [1; 3; 3; 1], [1; 1; 1; 1]);
   ("SAME", [1; 28; 28; 3], [1; 2; 2; 1], [1; 2; 2; 1]);
   ("SAME", [1; 28; 28; 3], [1; 2; 2; 1], [1; 1; 1; 1]);
   ("SAME", [1; 28; 28; 3], [1; 5; 5; 1], [1; 2; 2; 1]);
   ("SAME", [1; 28; 28; 3], [1; 5; 5; 1], [1; 1; 1; 1]);
   ("SAME", [1; 28; 28; 3], [1; 5; 2; 1], [1; 2; 2; 1]);
   ("SAME", [32; 8; 8; 2048], [1; 3; 3; 1], [1; 2; 2; 1]);
   ("SAME", [32; 8; 8; 2048], [1; 3; 3; 1], [1; 1; 1; 1]);
   ("VALID", [32; 35; 35; 288], [1; 3; 3; 1], [1; 1; 1; 1]);
   ("VALID", [32; 35; 35; 288], [1; 2; 2; 1], [1; 2; 2; 1])]%Z.

(** [enumerate]: every item with its position. *)
Definition enumerate {A} (l : list A) : list (nat * A) :=
  imap (λ idx v, (idx, v)) l.

(** [get_conv_getdata], lines 50-87: what the generator yields when it is
    run to its end, or the exception that running it raises. *)
Definition get_conv_getdata (kind : Z) : Result (list (nat * ConvCase)) :=
  if bool_decide (kind = 0%Z) then Return (enumerate conv_product)
  else if bool_decide (kind = 1%Z) then Return (enumerate conv_data)
  else Raise (ValueError "kind not known").

(** The store of pattern objects once the module body has run on the
    empty store. *)
Definition module_store : Store := Eval vm_compute in (module_body []).2.

(** The capture names met in an unfolded pattern, the root first; a name
    is listed as often as it is met. *)
Fixpoint tree_captures (t : PatternTree) : list string :=
  match t with
  | PNode _ name children =>
      (match name with Some n => [n] | None => [] end
       ++ flat_map tree_captures children)%list
  end.

(** * Properties *)

(** ** Results, indexing and constants *)

Lemma bind_Return {A B} (m : Result A) (f : A → Result B) b :
  m ≫= f = Return b ↔ ∃ a, m = Return a ∧ f a = Return b.
Proof.
  destruct m; simpl; split.
  - eauto.
  - intros (? & [= ->] & ?). done.
  - discriminate.
  - intros (? & ? & ?). discriminate.
Qed.

Lemma index_Return {A} (l : list A) i x :
  index l i = Return x ↔ l !! i = Some x.
Proof. unfold index. destruct (l !! i); split; congruence. Qed.

Lemma get_tensor_value_Return n v :
  get_tensor_value n = Return v ↔ type n = "Const" ∧ tensor n = Some v.
Proof.
  unfold get_tensor_value, is_const.
  case_bool_decide; destruct (tensor n); split; intros;
    destruct_and?; try congruence; try done.
  split; congruence.
Qed.

Lemma get_tensor_value_is_const n v :
  get_tensor_value n = Return v → is_const n = true.
Proof.
  intros [Hty _]%get_tensor_value_Return. by apply bool_decide_eq_true.
Qed.

(** ** The permutation heuristic *)

Lemma and_then_true a b :
  and_then a b = Return true ↔ a = Return true ∧ b = Return true.
Proof.
  unfold and_then. destruct a as [[]|e]; simpl; split;
    try (intros [? ?]); try done.
Qed.

Lemma eq_truth_true v k : eq_truth v k = Return true ↔ v = [k].
Proof.
  unfold eq_truth. destruct v as [|x [|y l]]; split; try done.
  - intros [= H]. apply bool_decide_eq_true in H. by subst.
  - intros [= ->]. by rewrite bool_decide_true.
Qed.

Lemma eq_truth_one x k : eq_truth [x] k = Return (bool_decide (x = k)).
Proof. reflexivity. Qed.

(** The heuristic on a ConcatV2 with the three inputs [a], [b] and an
    axis, once the first value is known to be [[1, 0]]. *)
Lemma check_is_unfolded_perm_concat perm_node a b axis :
  type perm_node = "ConcatV2" → inputs perm_node = [a; b; axis] →
  get_tensor_value a = Return [1; 0]%Z →
  check_is_unfolded_perm perm_node =
    (start_node ← index (inputs b) 0;
     range_start ← get_tensor_value start_node;
     limit_node ← index (inputs b) 1;
     range_limit ← get_tensor_value limit_node;
     delta_node ← index (inputs b) 2;
     range_delta ← get_tensor_value delta_node;
     and_then (Return (bool_decide (type b = "Range")))
       (and_then (eq_truth range_start 2)
          (and_then (eq_truth range_limit 3) (eq_truth range_delta 1)))).
Proof.
  intros Hty Hin Ha. unfold check_is_unfolded_perm.
  rewrite Hty, Hin. simpl. rewrite Ha. reflexivity.
Qed.

(** The same, once the three inputs of [b] and their values are known. *)
Lemma check_is_unfolded_perm_values perm_node a b axis s l d vs vl vd :
  type perm_node = "ConcatV2" → inputs perm_node = [a; b; axis] →
  get_tensor_value a = Return [1; 0]%Z →
  inputs b !! 0 = Some s → inputs b !! 1 = Some l → inputs b !! 2 = Some d →
  get_tensor_value s = Return vs → get_tensor_value l = Return vl →
  get_tensor_value d = Return vd →
  check_is_unfolded_perm perm_node =
    and_then (Return (bool_decide (type b = "Range")))
      (and_then (eq_truth vs 2) (and_then (eq_truth vl 3) (eq_truth vd 1))).
Proof.
  intros Hty Hin Ha Hs Hl Hd Hvs Hvl Hvd.
  rewrite (check_is_unfolded_perm_concat _ _ _ _ Hty Hin Ha).
  unfold index. rewrite Hs, Hl, Hd. simpl. rewrite Hvs. simpl.
  rewrite Hvl. simpl. rewrite Hvd. reflexivity.
Qed.

(** The heuristic answers [True] on the indirect form of [[1, 0, 2]] and on
    nothing else. *)
Lemma check_is_unfolded_perm_true perm_node :
  check_is_unfolded_perm perm_node = Return true ↔ unfolded_perm_form perm_node.
Proof.
  unfold unfolded_perm_form, concat_of, range_of, const_equal.
  split.
  - unfold check_is_unfolded_perm.
    destruct (bool_decide (type perm_node = "ConcatV2")) eqn:Hty;
      [|discriminate].
    destruct (bool_decide (length (inputs perm_node) = 3)) eqn:Hlen;
      [|discriminate].
    apply bool_decide_eq_true in Hty, Hlen. simpl.
    destruct (inputs perm_node) as [|a [|b [|axis [|? ?]]]] eqn:Hin;
      try discriminate.
    simpl. intros H.
    apply bind_Return in H as (va & Ha & H).
    case_bool_decide as Hva; [discriminate|]. subst va.
    repeat (apply bind_Return in H as (? & ? & H)).
    repeat match goal with
           | H : index _ _ = Return _ |- _ => apply index_Return in H
           end.
    destruct (bool_decide (type b = "Range")) eqn:E1; [|discriminate].
    apply bool_decide_eq_true in E1.
    apply and_then_true in H as [E2 H].
    apply and_then_true in H as [E3 E4].
    apply eq_truth_true in E2, E3, E4. subst.
    exists a, b. naive_solver.
  - intros (a & b & (Hty & axis & Hin) & Ha & Hr & s & l & d &
            Hs & Hl & Hd & Hvs & Hvl & Hvd).
    rewrite (check_is_unfolded_perm_values _ _ _ _ _ _ _ _ _ _
               Hty Hin Ha Hs Hl Hd Hvs Hvl Hvd).
    rewrite Hr. reflexivity.
Qed.

Lemma unfolded_perm_form_not_const n :
  unfolded_perm_form n → is_const n = false.
Proof.
  intros (a & b & (Hty & _) & _). unfold is_const. rewrite Hty. reflexivity.
Qed.

(** A range over three one-element constants other than [2], [3], [1]
    makes the heuristic answer [False]. *)
Lemma unfolded_perm_other_range perm_node a b (start limit delta : Z) :
  concat_of perm_node a b → const_equal a [1; 0]%Z →
  range_of b [start] [limit] [delta] →
  (start, limit, delta) ≠ (2, 3, 1)%Z →
  check_is_unfolded_perm perm_node = Return false.
Proof.
  intros (Hty & axis & Hin) Ha
         (Hr & s & l & d & Hs & Hl & Hd & Hvs & Hvl & Hvd) Hne.
  unfold const_equal in *.
  rewrite (check_is_unfolded_perm_values _ _ _ _ _ _ _ _ _ _
             Hty Hin Ha Hs Hl Hd Hvs Hvl Hvd).
  rewrite Hr, !eq_truth_one. unfold and_then. simpl.
  repeat case_bool_decide; simpl; try reflexivity. subst. done.
Qed.

(** ** The time-major check on a transpose *)

Lemma timemajor_Transpose node perm_node :
  type node = "Transpose" → inputs node !! 1 = Some perm_node →
  check_is_timemajor_transpose node =
    if is_const perm_node then
      perm ← get_tensor_value perm_node;
      if bool_decide (perm = [1; 0; 2]%Z) then Return (PyBool true)
      else Return PyNone
    else
      unfolded ← check_is_unfolded_perm perm_node;
      match unfolded with
      | true => Return (PyBool true)
      | false => Raise (ValueError "Not supported yet")
      end.
Proof.
  intros Hty Hin. unfold check_is_timemajor_transpose, index.
  rewrite Hty, Hin. reflexivity.
Qed.

Lemma timemajor_not_Transpose node :
  type node ≠ "Transpose" → check_is_timemajor_transpose node = Return PyNone.
Proof.
  intros Hty. unfold check_is_timemajor_transpose.
  by rewrite bool_decide_true.
Qed.

(** When the permutation input is not a constant and the heuristic answers
    [False], the check raises [ValueError("Not supported yet")]. *)
Lemma timemajor_not_unfolded node perm_node :
  type node = "Transpose" → inputs node !! 1 = Some perm_node →
  is_const perm_node = false →
  check_is_unfolded_perm perm_node = Return false →
  check_is_timemajor_transpose node = Raise (ValueError "Not supported yet").
Proof.
  intros Hty Hin Hc Hu. rewrite (timemajor_Transpose _ _ Hty Hin), Hc, Hu.
  reflexivity.
Qed.

(** In particular a transpose over [concat([1, 0], range(0, 5, 1))] is
    refused with [ValueError("Not supported yet")]. *)
Lemma timemajor_range_0_5_not_supported node perm_node a b :
  type node = "Transpose" → inputs node !! 1 = Some perm_node →
  concat_of perm_node a b → const_equal a [1; 0]%Z →
  range_of b [0]%Z [5]%Z [1]%Z →
  check_is_timemajor_transpose node = Raise (ValueError "Not supported yet").
Proof.
  intros Hty Hin Hc Ha Hr. apply (timemajor_not_unfolded _ perm_node); try done.
  - destruct Hc as [Hc _]. unfold is_const. by rewrite Hc.
  - by apply (unfolded_perm_other_range _ a b 0 5 1).
Qed.

(** With a permutation input that is not a constant, the check never
    returns [None] or [False]: it returns [True] or it raises. *)
Lemma timemajor_nonconst_true_or_raises node perm_node :
  type node = "Transpose" → inputs node !! 1 = Some perm_node →
  is_const perm_node = false →
  check_is_timemajor_transpose node = Return (PyBool true) ∨
  raises (check_is_timemajor_transpose node).
Proof.
  intros Hty Hin Hc. rewrite (timemajor_Transpose _ _ Hty Hin), Hc.
  destruct (check_is_unfolded_perm perm_node) as [[]|e]; simpl;
    [by left|right; by eexists..].
Qed.

(** Claim C1, as amended: for every Transpose node whose permutation input
    is a constant whose value differs from [[1, 0, 2]],
    [check_is_timemajor_transpose] returns [None] (the [else: return] of
    line 164); it raises nothing. *)
Theorem timemajor_const_other_perm_returns_none node perm_node perm :
  type node = "Transpose" → inputs node !! 1 = Some perm_node →
  const_equal perm_node perm → perm ≠ [1; 0; 2]%Z →
  check_is_timemajor_transpose node = Return PyNone.
Proof.
  intros Hty Hin Hv Hne. rewrite (timemajor_Transpose _ _ Hty Hin).
  rewrite (get_tensor_value_is_const _ _ Hv). unfold const_equal in Hv.
  rewrite Hv. simpl. by rewrite bool_decide_false.
Qed.

Lemma timemajor_const_other_perm_returns_none_witness :
  type transpose_0_1_2 = "Transpose" ∧
  inputs transpose_0_1_2 !! 1 = Some perm_const_0_1_2 ∧
  const_equal perm_const_0_1_2 [0; 1; 2]%Z ∧
  [0; 1; 2]%Z ≠ [1; 0; 2]%Z ∧
  check_is_timemajor_transpose transpose_0_1_2 = Return PyNone.
Proof.
  assert (Hne : [0; 1; 2]%Z ≠ [1; 0; 2]%Z) by discriminate.
  split; [reflexivity|]. split; [reflexivity|]. split; [reflexivity|].
  split; [exact Hne|].
  apply (timemajor_const_other_perm_returns_none
           transpose_0_1_2 perm_const_0_1_2 [0; 1; 2]%Z);
    [reflexivity | reflexivity | reflexivity | exact Hne].
Defined.

(** Claim C1 as stated fails: the transpose over the constant permutation
    [[0, 1, 2]] meets the premises, and the check raises nothing on it but
    returns [None]. *)
Lemma timemajor_const_other_perm_counterexample :
  type transpose_0_1_2 = "Transpose" ∧
  inputs transpose_0_1_2 !! 1 = Some perm_const_0_1_2 ∧
  is_const perm_const_0_1_2 = true ∧
  get_tensor_value perm_const_0_1_2 = Return [0; 1; 2]%Z ∧
  [0; 1; 2]%Z ≠ [1; 0; 2]%Z ∧
  check_is_timemajor_transpose transpose_0_1_2 = Return PyNone ∧
  ¬ raises (check_is_timemajor_transpose transpose_0_1_2).
Proof.
  repeat split; try reflexivity; try discriminate.
  intros [e He]. vm_compute in He. discriminate.
Qed.

(** Claim C2: for every node that concatenates two operands, the first a
    constant equal to [[1, 0]] and the second a range operation with start
    [2], limit [3] and step [1], [check_is_unfolded_perm] returns [True],
    and [check_is_timemajor_transpose] returns [True] on every Transpose
    that takes the node as its permutation. *)
Theorem unfolded_perm_recognized perm_node a b :
  concat_of perm_node a b → const_equal a [1; 0]%Z →
  range_of b [2]%Z [3]%Z [1]%Z →
  check_is_unfolded_perm perm_node = Return true ∧
  ∀ node, type node = "Transpose" → inputs node !! 1 = Some perm_node →
          check_is_timemajor_transpose node = Return (PyBool true).
Proof.
  intros Hc Ha Hr.
  assert (Hform : unfolded_perm_form perm_node) by (exists a, b; done).
  pose proof (proj2 (check_is_unfolded_perm_true _) Hform) as Hu.
  split; [exact Hu|]. intros node Hty Hin.
  rewrite (timemajor_Transpose _ _ Hty Hin).
  rewrite (unfolded_perm_form_not_const _ Hform), Hu. reflexivity.
Qed.

Lemma unfolded_perm_recognized_witness :
  concat_of perm_unfolded (Const_node "concat/values_0" [1; 0]%Z)
            (Range_node 2 3 1) ∧
  const_equal (Const_node "concat/values_0" [1; 0]%Z) [1; 0]%Z ∧
  range_of (Range_node 2 3 1) [2]%Z [3]%Z [1]%Z ∧
  check_is_unfolded_perm perm_unfolded = Return true ∧
  check_is_timemajor_transpose (Transpose_node perm_unfolded)
    = Return (PyBool true).
Proof.
  assert (Hc : concat_of perm_unfolded
                 (Const_node "concat/values_0" [1; 0]%Z) (Range_node 2 3 1))
    by (split; [reflexivity | eexists; reflexivity]).
  assert (Ha : const_equal (Const_node "concat/values_0" [1; 0]%Z) [1; 0]%Z)
    by reflexivity.
  assert (Hr : range_of (Range_node 2 3 1) [2]%Z [3]%Z [1]%Z)
    by (split; [reflexivity | eexists _, _, _; repeat split; reflexivity]).
  destruct (unfolded_perm_recognized _ _ _ Hc Ha Hr) as [Hu Ht].
  split; [exact Hc|]. split; [exact Ha|]. split; [exact Hr|].
  split; [exact Hu|]. apply Ht; reflexivity.
Defined.

(** Claim C3, at an input where the code departs from it: the permutation
    of the transpose is [concat([1, 0], [2])], a concatenation whose second
    operand is a constant and not a range.  The heuristic indexes the
    inputs of that operand before it looks at its type, so
    [check_is_unfolded_perm] and with it [check_is_timemajor_transpose]
    raise [IndexError], not [ValueError("Not supported yet")]. *)
Theorem timemajor_concat_consts_raises_IndexError :
  type (Transpose_node perm_concat_consts) = "Transpose" ∧
  inputs (Transpose_node perm_concat_consts) !! 1 = Some perm_concat_consts ∧
  is_const perm_concat_consts = false ∧
  ¬ unfolded_perm_form perm_concat_consts ∧
  check_is_unfolded_perm perm_concat_consts = Raise IndexError ∧
  check_is_timemajor_transpose (Transpose_node perm_concat_consts)
    = Raise IndexError ∧
  check_is_timemajor_transpose (Transpose_node perm_concat_consts)
    ≠ Raise (ValueError "Not supported yet").
Proof.
  repeat split; try reflexivity; try discriminate.
  intros Hform%check_is_unfolded_perm_true. vm_compute in Hform. discriminate.
Qed.

(** Claim C5: [check_is_timemajor_transpose] returns [True] exactly when
    the node is a Transpose whose second input is a constant equal to
    [[1, 0, 2]] or has the indirect unfolded form; on every node that is
    not a Transpose it returns a falsy result. *)
Theorem timemajor_true_iff node :
  (check_is_timemajor_transpose node = Return (PyBool true) ↔
   type node = "Transpose" ∧
   ∃ perm_node, inputs node !! 1 = Some perm_node ∧
     (const_equal perm_node [1; 0; 2]%Z ∨ unfolded_perm_form perm_node)) ∧
  (type node ≠ "Transpose" →
   ∃ r, check_is_timemajor_transpose node = Return r ∧ truthy r = false).
Proof.
  split; [split|].
  - intros H. destruct (decide (type node = "Transpose")) as [Hty|Hty];
      [|rewrite (timemajor_not_Transpose _ Hty) in H; discriminate].
    split; [done|].
    destruct (inputs node !! 1) as [perm_node|] eqn:Hin.
    + exists perm_node. split; [done|].
      rewrite (timemajor_Transpose _ _ Hty Hin) in H.
      destruct (is_const perm_node).
      * left. unfold const_equal.
        destruct (get_tensor_value perm_node) as [perm|]; [|discriminate].
        simpl in H. case_bool_decide; [by subst|discriminate].
      * right. apply check_is_unfolded_perm_true.
        destruct (check_is_unfolded_perm perm_node) as [[]|]; done.
    + unfold check_is_timemajor_transpose, index in H.
      rewrite Hty, Hin in H. discriminate.
  - intros (Hty & perm_node & Hin & [Hv|Hform]).
    + rewrite (timemajor_Transpose _ _ Hty Hin).
      rewrite (get_tensor_value_is_const _ _ Hv). unfold const_equal in Hv.
      rewrite Hv. reflexivity.
    + rewrite (timemajor_Transpose _ _ Hty Hin).
      rewrite (unfolded_perm_form_not_const _ Hform).
      rewrite (proj2 (check_is_unfolded_perm_true _) Hform). reflexivity.
  - intros Hty. exists PyNone. split; [by apply timemajor_not_Transpose|done].
Qed.

Lemma timemajor_true_iff_witness :
  check_is_timemajor_transpose (Transpose_node (Const_node "perm" [1; 0; 2]%Z))
    = Return (PyBool true) ∧
  ∃ r, check_is_timemajor_transpose (Placeholder_node "x") = Return r ∧
       truthy r = false.
Proof.
  split.
  - apply (proj1 (timemajor_true_iff
                    (Transpose_node (Const_node "perm" [1; 0; 2]%Z)))).
    split; [reflexivity|].
    exists (Const_node "perm" [1; 0; 2]%Z). split; [reflexivity|].
    left. reflexivity.
  - apply (proj2 (timemajor_true_iff (Placeholder_node "x"))). discriminate.
Defined.

(** A second operand without three inputs that are all constants makes
    the reads of lines 182-184 raise. *)
Lemma second_operand_reads_raise b (k : Tensor → Tensor → Tensor → Result bool) :
  ¬ three_const_inputs b →
  raises (start_node ← index (inputs b) 0;
          range_start ← get_tensor_value start_node;
          limit_node ← index (inputs b) 1;
          range_limit ← get_tensor_value limit_node;
          delta_node ← index (inputs b) 2;
          range_delta ← get_tensor_value delta_node;
          k range_start range_limit range_delta).
Proof.
  unfold three_const_inputs, const_equal, raises, index. intros Hnot.
  destruct (inputs b !! 0) as [s|] eqn:Hs; simpl; [|eauto].
  destruct (get_tensor_value s) as [vs|] eqn:Hvs; simpl; [|eauto].
  destruct (inputs b !! 1) as [l|] eqn:Hl; simpl; [|eauto].
  destruct (get_tensor_value l) as [vl|] eqn:Hvl; simpl; [|eauto].
  destruct (inputs b !! 2) as [d|] eqn:Hd; simpl; [|eauto].
  destruct (get_tensor_value d) as [vd|] eqn:Hvd; simpl; [|eauto].
  destruct Hnot. exists s, l, d, vs, vl, vd. done.
Qed.

(** Claim C8: on a ConcatV2 node with exactly three inputs whose first
    input is a constant equal to [[1, 0]], [check_is_unfolded_perm] reads
    the first three inputs of the second operand and their tensor values
    before it looks at the type of that operand: it raises, and does not
    return [False], whenever the second operand does not have three inputs
    that are all constants, whatever its type; and when an operand that is
    not a Range does have them, the type test that follows gives
    [False]. *)
Theorem unfolded_perm_second_operand_raises perm_node a b :
  concat_of perm_node a b → const_equal a [1; 0]%Z →
  (¬ three_const_inputs b →
   raises (check_is_unfolded_perm perm_node) ∧
   check_is_unfolded_perm perm_node ≠ Return false) ∧
  (type b ≠ "Range" → three_const_inputs b →
   check_is_unfolded_perm perm_node = Return false).
Proof.
  intros (Hty & axis & Hin) Ha. unfold const_equal in Ha. split.
  - intros Hnot.
    assert (Hr : raises (check_is_unfolded_perm perm_node)).
    { rewrite (check_is_unfolded_perm_concat _ _ _ _ Hty Hin Ha).
      by apply (second_operand_reads_raise b
        (λ range_start range_limit range_delta,
           and_then (Return (bool_decide (type b = "Range")))
             (and_then (eq_truth range_start 2)
                (and_then (eq_truth range_limit 3)
                          (eq_truth range_delta 1))))). }
    split; [exact Hr|]. destruct Hr as [e He]. rewrite He. discriminate.
  - intros Hr (s & l & d & vs & vl & vd & Hs & Hl & Hd & Hvs & Hvl & Hvd).
    rewrite (check_is_unfolded_perm_values _ _ _ _ _ _ _ _ _ _
               Hty Hin Ha Hs Hl Hd Hvs Hvl Hvd).
    by rewrite (bool_decide_false _ Hr).
Qed.

Lemma unfolded_perm_second_operand_raises_witness :
  concat_of perm_concat_consts (Const_node "concat/values_0" [1; 0]%Z)
            (Const_node "concat/values_1" [2]%Z) ∧
  const_equal (Const_node "concat/values_0" [1; 0]%Z) [1; 0]%Z ∧
  ¬ three_const_inputs (Const_node "concat/values_1" [2]%Z) ∧
  raises (check_is_unfolded_perm perm_concat_consts).
Proof.
  assert (Hc : concat_of perm_concat_consts
                 (Const_node "concat/values_0" [1; 0]%Z)
                 (Const_node "concat/values_1" [2]%Z))
    by (split; [reflexivity | eexists; reflexivity]).
  assert (Ha : const_equal (Const_node "concat/values_0" [1; 0]%Z) [1; 0]%Z)
    by reflexivity.
  assert (Hn : ¬ three_const_inputs (Const_node "concat/values_1" [2]%Z)).
  { intros (s & l & d & vs & vl & vd & Hs & _). simpl in Hs. discriminate. }
  split; [exact Hc|]. split; [exact Ha|]. split; [exact Hn|].
  exact (proj1 (proj1 (unfolded_perm_second_operand_raises _ _ _ Hc Ha) Hn)).
Defined.

(** ** The constant resolver *)

Lemma skip_identity_unfold temp :
  skip_identity temp =
    if bool_decide (type temp = "Identity") then
      match inputs temp with
      | [] => Raise IndexError
      | temp' :: _ => skip_identity temp'
      end
    else Return temp.
Proof. destruct temp. reflexivity. Qed.

(** The loop stops at the end of the chain ... *)
Lemma identity_chain_skip n p : identity_chain n p → skip_identity n = Return p.
Proof.
  induction 1 as [n Hty|n n' p Hty Hin _ IH]; rewrite skip_identity_unfold.
  - by rewrite bool_decide_false.
  - rewrite bool_decide_true by done.
    destruct (inputs n) as [|? ?]; [discriminate|].
    simpl in Hin. by injection Hin as ->.
Qed.

(** ... and where it stops, a chain has been followed. *)
Lemma skip_identity_chain :
  ∀ n p, skip_identity n = Return p → identity_chain n p.
Proof.
  fix IH 1. intros [nm ty dt tn ins] p. rewrite skip_identity_unfold. simpl.
  case_bool_decide as Hty.
  - destruct ins as [|n' rest]; [discriminate|].
    intros H. apply (chain_step _ n'); [done|done|]. apply IH, H.
  - intros [= <-]. by apply chain_end.
Qed.

Lemma identity_chain_end n p : identity_chain n p → type p ≠ "Identity".
Proof. induction 1; done. Qed.

Section Resolver_facts.
Context {D : Type} (ONNX_TO_NUMPY_DTYPE : gmap Z D).

(** The resolver in terms of the producer [p] at the end of the chain.
    The [log.debug] record is below the threshold and leaves the log as
    it was. *)
Lemma get_weights_chain node p records :
  identity_chain node p →
  get_weights_from_const_node ONNX_TO_NUMPY_DTYPE node records =
    if bool_decide (type p = "Const") then
      match get_tensor_value p with
      | Return val =>
          match getitem ONNX_TO_NUMPY_DTYPE (dtype p) with
          | Return np_dtype =>
              (Return (Some (RnnWeight.mk node val np_dtype)), records)
          | Raise e => (Raise e, records)
          end
      | Raise e => (Raise e, records)
      end
    else
      (Return None,
       (records ++ [mkLogRecord ERROR
          ("weight node seems not to be Const, skip, node name is "
           +:+ name p)])%list).
Proof.
  intros Hchain%identity_chain_skip.
  unfold get_weights_from_const_node, mbind, Exec_bind, lift.
  rewrite Hchain. case_bool_decide; [|reflexivity].
  destruct (get_tensor_value p); [|reflexivity].
  destruct (getitem _ _); reflexivity.
Qed.

(** Claim C4: when [node] heads a chain of zero or more Identity nodes
    that leads to the first producer [p] that is not an Identity, the
    resolver follows the chain to [p]; if [p] is a Const it returns the
    tensor embedded in [p] together with the entry of
    [ONNX_TO_NUMPY_DTYPE] for the element type of [p]; otherwise it
    signals the failure by returning [None], having logged one record at
    level ERROR that names [p], and raises nothing. *)
Theorem get_weights_resolves_chain node p records :
  identity_chain node p →
  skip_identity node = Return p ∧ type p ≠ "Identity" ∧
  (type p = "Const" → ∀ val np_dtype,
     tensor p = Some val → ONNX_TO_NUMPY_DTYPE !! dtype p = Some np_dtype →
     get_weights_from_const_node ONNX_TO_NUMPY_DTYPE node records =
       (Return (Some (RnnWeight.mk node val np_dtype)), records)) ∧
  (type p ≠ "Const" →
     get_weights_from_const_node ONNX_TO_NUMPY_DTYPE node records =
       (Return None,
        (records ++ [mkLogRecord ERROR
           ("weight node seems not to be Const, skip, node name is "
            +:+ name p)])%list)).
Proof.
  intros Hchain.
  split; [by apply identity_chain_skip|].
  split; [by apply (identity_chain_end node)|].
  rewrite (get_weights_chain _ _ _ Hchain). split.
  - intros Hty val np_dtype Hval Hdt. rewrite bool_decide_true by done.
    unfold get_tensor_value, is_const, getitem.
    rewrite bool_decide_true by done. by rewrite Hval, Hdt.
  - intros Hty. by rewrite bool_decide_false.
Qed.

(** Claim C10: when the resolver returns an [RnnWeight], its [node] is
    the node that was passed in, the head of the chain, while its [value]
    and [dtype] come from the Const producer [p] at the end of the chain;
    when the head is an Identity, [p] is another node. *)
Theorem get_weights_keeps_head node records w records' :
  get_weights_from_const_node ONNX_TO_NUMPY_DTYPE node records =
    (Return (Some w), records') →
  RnnWeight.node w = node ∧
  ∃ p, identity_chain node p ∧ type p = "Const" ∧
       tensor p = Some (RnnWeight.value w) ∧
       ONNX_TO_NUMPY_DTYPE !! dtype p = Some (RnnWeight.dtype w) ∧
       (type node = "Identity" → p ≠ node).
Proof.
  intros H.
  destruct (skip_identity node) as [p|e] eqn:Hskip.
  - apply skip_identity_chain in Hskip.
    rewrite (get_weights_chain _ _ _ Hskip) in H.
    case_bool_decide as Hty; [|discriminate].
    destruct (get_tensor_value p) as [val|] eqn:Hval; [|discriminate].
    unfold getitem in H.
    destruct (ONNX_TO_NUMPY_DTYPE !! dtype p) as [d|] eqn:Hdt;
      [|discriminate].
    injection H as <- <-. split; [reflexivity|].
    exists p. apply get_tensor_value_Return in Hval as [_ Hval]. simpl.
    repeat split; try done.
    intros Hid ->. congruence.
  - unfold get_weights_from_const_node, mbind, Exec_bind, lift in H.
    rewrite Hskip in H. discriminate.
Qed.
End Resolver_facts.

Lemma kernel_read_chain : identity_chain kernel_read kernel_const.
Proof. apply skip_identity_chain. reflexivity. Defined.

Lemma get_weights_resolves_chain_witness :
  identity_chain kernel_read kernel_const ∧
  get_weights_from_const_node sample_dtypes kernel_read [] =
    (Return (Some (RnnWeight.mk kernel_read [1; 2; 3]%Z "int32")), []).
Proof.
  split; [exact kernel_read_chain|].
  destruct (get_weights_resolves_chain sample_dtypes kernel_read kernel_const
              [] kernel_read_chain) as (_ & _ & Hconst & _).
  apply Hconst; reflexivity.
Defined.

Lemma get_weights_keeps_head_witness :
  get_weights_from_const_node sample_dtypes kernel_read [] =
    (Return (Some (RnnWeight.mk kernel_read [1; 2; 3]%Z "int32")), []) ∧
  RnnWeight.node (RnnWeight.mk kernel_read [1; 2; 3]%Z "int32") = kernel_read.
Proof.
  assert (H : get_weights_from_const_node sample_dtypes kernel_read [] =
    (Return (Some (RnnWeight.mk kernel_read [1; 2; 3]%Z "int32")), []))
    by (vm_compute; reflexivity).
  split; [exact H|].
  exact (proj1 (get_weights_keeps_head sample_dtypes kernel_read [] _ [] H)).
Defined.

(** ** The helper classes *)

(** Claim C9: a freshly constructed [RnnInitializers] has exactly one form
    filled in.  When a shared initializer is given (the test
    [if c_h_shared_init:] of line 46 succeeds), [share_init_node] is [True],
    [share_init_input_id] holds it and the split ids are [None]; otherwise
    [share_init_node] is [False], [share_init_input_id] is [None] and the
    split ids hold the given cell and hidden initializers. *)
Theorem RnnInitializers_init_forms c_init h_init c_h_shared_init :
  let self := RnnInitializers.init c_init h_init c_h_shared_init in
  (truthy_id c_h_shared_init = true →
     RnnInitializers.share_init_node self = Some true ∧
     RnnInitializers.share_init_input_id self = c_h_shared_init ∧
     RnnInitializers.c_init_input_id self = None ∧
     RnnInitializers.h_init_input_id self = None) ∧
  (truthy_id c_h_shared_init = false →
     RnnInitializers.share_init_node self = Some false ∧
     RnnInitializers.share_init_input_id self = None ∧
     RnnInitializers.c_init_input_id self = c_init ∧
     RnnInitializers.h_init_input_id self = h_init).
Proof.
  unfold RnnInitializers.init.
  destruct (truthy_id c_h_shared_init); simpl; split; intros; done.
Qed.

Lemma RnnInitializers_init_forms_witness :
  RnnInitializers.init (Some "c:0") (Some "h:0") (Some "ch:0")
    = RnnInitializers.mk None None (Some true) (Some "ch:0") ∧
  RnnInitializers.share_init_node
    (RnnInitializers.init (Some "c:0") (Some "h:0") (Some "ch:0")) = Some true ∧
  RnnInitializers.share_init_node
    (RnnInitializers.init (Some "c:0") (Some "h:0") None) = Some false.
Proof.
  split; [reflexivity|]. split.
  - apply (proj1 (RnnInitializers_init_forms
                    (Some "c:0") (Some "h:0") (Some "ch:0"))).
    reflexivity.
  - apply (proj2 (RnnInitializers_init_forms (Some "c:0") (Some "h:0") None)).
    reflexivity.
Defined.

(** ** The patterns *)

(** Claim C6: after the module body has run, [lstmcell_pattern] is a
    ["Mul"] captured as ["ht"]; below it there is exactly one object
    captured for each of the gates ["ot"], ["ft"], ["it"] and ["gt"]; the
    output, input and cell-candidate gates have the object [xc_pattern]
    itself as their only input, and the forget gate has it as the first
    input of its ["Add"]; the store holds a single ["Split"] object, which
    is [xc_pattern], a Split of a constant axis and a BiasAdd of a MatMul
    (over the Concat captured as ["xh"] and the Enter of the wildcard
    ["cell_kernel"]) and the Enter of the wildcard ["cell_bias"]. *)
Theorem lstmcell_pattern_shares_xc :
  ∃ vars σ, module_body [] = (Return vars, σ) ∧
    let xc := xc_pattern vars in
    let ht := lstmcell_pattern vars in
    (OpTypePattern.op_type <$> deref σ ht) = Some "Mul" ∧
    (OpTypePattern.name <$> deref σ ht) = Some (Some "ht") ∧
    unfold_pattern 5 σ xc =
      Some (PNode "Split" None
              [PNode "Const" None [];
               PNode "BiasAdd" (Some "bias_add")
                 [PNode "MatMul" None
                    [PNode "ConcatV2|Concat" (Some "xh") [];
                     PNode "Enter" None [PNode "*" (Some "cell_kernel") []]];
                  PNode "Enter" None [PNode "*" (Some "cell_bias") []]]]) ∧
    of_op_type σ "Split" = [xc] ∧
    ∃ ot ft it gt ft_add ft_bias,
      captured σ "ot" = [ot] ∧ captured σ "ft" = [ft] ∧
      captured σ "it" = [it] ∧ captured σ "gt" = [gt] ∧
      Forall (λ gate, reaches 5 σ gate ht = true) [ot; ft; it; gt] ∧
      deref σ ot = Some (OpTypePattern.mk "Sigmoid" (Some "ot") [xc]) ∧
      deref σ ft = Some (OpTypePattern.mk "Sigmoid" (Some "ft") [ft_add]) ∧
      deref σ ft_add = Some (OpTypePattern.mk "Add" None [xc; ft_bias]) ∧
      deref σ it = Some (OpTypePattern.mk "Sigmoid" (Some "it") [xc]) ∧
      deref σ gt = Some (OpTypePattern.mk "Tanh" (Some "gt") [xc]).
Proof.
  eexists _, _. split; [reflexivity|]. cbn zeta.
  repeat (split; [vm_compute; reflexivity|]).
  eexists _, _, _, _, _, _.
  repeat (split; [vm_compute; reflexivity|]).
  split; [repeat constructor|].
  repeat (split; [vm_compute; reflexivity|]). vm_compute; reflexivity.
Qed.

(** Claim C7: in the pattern table the entry of [GRUCell] is [None], so
    [get_pattern] returns [None] for [GRUCell], while for [LSTMCell] it
    returns [lstmcell_pattern]; the one test that [GRUTests] declares
    raises [ValueError("Not implemented")]. *)
Theorem get_pattern_table :
  ∃ vars σ, module_body [] = (Return vars, σ) ∧
    rnn_cell_patterns vars !! GRUCell = Some None ∧
    get_pattern vars GRUCell = Return None ∧
    get_pattern vars LSTMCell = Return (Some (lstmcell_pattern vars)) ∧
    (OpTypePattern.name <$> deref σ (lstmcell_pattern vars))
      = Some (Some "ht") ∧
    GRUTests.tests =
      [("test_test_single_dynamic_gru_state_is_tuple",
        Raise (ValueError "Not implemented"))].
Proof.
  eexists _, _. split; [reflexivity|].
  repeat split; vm_compute; reflexivity.
Qed.

(** * Further properties *)

(** ** RnnProperties.is_valid *)

(** [is_valid] answers [False] exactly when no input node is set, and then
    logs one ERROR record; it answers [True] exactly when an input node and
    an input id are set, and then logs nothing (the DEBUG record is below
    the threshold); with an input node but no input id it raises
    [TypeError] while building the debug message, and logs nothing. *)
Theorem is_valid_outcomes self records :
  let out := RnnProperties.is_valid self records in
  (out.1 = NoError false ↔ RnnProperties.input_node self = None) ∧
  (out.1 = NoError true ↔
     is_Some (RnnProperties.input_node self) ∧
     is_Some (RnnProperties.input_id self)) ∧
  (out.1 = TypeError ↔
     is_Some (RnnProperties.input_node self) ∧
     RnnProperties.input_id self = None) ∧
  (out.1 = NoError false →
     out.2 = (records ++ [mkLogRecord ERROR
                "no input node found for current rnn, skip"])%list) ∧
  (out.1 ≠ NoError false → out.2 = records).
Proof.
  unfold RnnProperties.is_valid.
  destruct (RnnProperties.input_node self) as [n|],
           (RnnProperties.input_id self) as [s|]; simpl;
    repeat split; try done; try (intros [? ?]; done);
    try (intros [[? ?] ?]; done); try (intros [? [? ?]]; done); eauto.
Qed.

(** A freshly constructed [RnnProperties] is not valid. *)
Lemma is_valid_init records :
  RnnProperties.is_valid RnnProperties.init records =
    (NoError false,
     (records ++ [mkLogRecord ERROR
        "no input node found for current rnn, skip"])%list).
Proof. reflexivity. Qed.

(** ** The resolver on chains that do not end, on missing table entries,
    and its log *)

Lemma broken_chain_skip n : broken_chain n → skip_identity n = Raise IndexError.
Proof.
  induction 1 as [n Hty Hin|n n' Hty Hin _ IH]; rewrite skip_identity_unfold;
    rewrite bool_decide_true by done.
  - by rewrite Hin.
  - destruct (inputs n) as [|? ?]; [discriminate|].
    simpl in Hin. by injection Hin as ->.
Qed.

Lemma skip_identity_Raise :
  ∀ n e, skip_identity n = Raise e → e = IndexError ∧ broken_chain n.
Proof.
  fix IH 1. intros [nm ty dt tn ins] e. rewrite skip_identity_unfold. simpl.
  case_bool_decide as Hty; [|discriminate].
  destruct ins as [|n' rest].
  - intros [= <-]. split; [done|]. by apply broken_end.
  - intros H. destruct (IH _ _ H) as [-> Hb]. split; [done|].
    by apply (broken_step _ n').
Qed.

(** Every node either heads a chain to a producer that is not an Identity
    or heads a chain that does not end, never both. *)
Lemma chain_or_broken n :
  ((∃ p, identity_chain n p) ∨ broken_chain n) ∧
  ¬ ((∃ p, identity_chain n p) ∧ broken_chain n).
Proof.
  split.
  - destruct (skip_identity n) as [p|e] eqn:H.
    + left. exists p. by apply skip_identity_chain.
    + right. by apply skip_identity_Raise in H as [_ ?].
  - intros [[p Hp%identity_chain_skip] Hb%broken_chain_skip]. congruence.
Qed.

Section Resolver_more.
Context {D : Type} (ONNX_TO_NUMPY_DTYPE : gmap Z D).

Lemma get_weights_skip_Raise node e records :
  skip_identity node = Raise e →
  get_weights_from_const_node ONNX_TO_NUMPY_DTYPE node records =
    (Raise e, records).
Proof.
  intros H. unfold get_weights_from_const_node, mbind, Exec_bind, lift.
  by rewrite H.
Qed.

(** The resolver raises [IndexError], with the log as it was, exactly when
    the chain of Identity nodes ends in an Identity without inputs: a chain
    that does not end is not skipped but raised on. *)
Theorem get_weights_IndexError_iff_broken node records :
  (∃ records',
     get_weights_from_const_node ONNX_TO_NUMPY_DTYPE node records =
       (Raise IndexError, records')) ↔ broken_chain node.
Proof.
  split.
  - intros [records' H].
    destruct (skip_identity node) as [p|e] eqn:Hskip.
    + apply skip_identity_chain in Hskip.
      rewrite (get_weights_chain _ _ _ _ Hskip) in H.
      case_bool_decide; [|discriminate].
      unfold get_tensor_value, getitem in H.
      destruct (is_const p), (tensor p), (ONNX_TO_NUMPY_DTYPE !! dtype p);
        discriminate.
    + by apply skip_identity_Raise in Hskip as [_ ?].
  - intros Hb%broken_chain_skip. exists records.
    by apply get_weights_skip_Raise.
Qed.

(** A Const producer whose element type has no entry in
    [ONNX_TO_NUMPY_DTYPE] makes the resolver raise [KeyError]; nothing is
    logged. *)
Theorem get_weights_missing_dtype_KeyError node p val records :
  identity_chain node p → type p = "Const" → tensor p = Some val →
  ONNX_TO_NUMPY_DTYPE !! dtype p = None →
  get_weights_from_const_node ONNX_TO_NUMPY_DTYPE node records =
    (Raise KeyError, records).
Proof.
  intros Hchain Hty Hval Hdt. rewrite (get_weights_chain _ _ _ _ Hchain).
  rewrite bool_decide_true by done.
  unfold get_tensor_value, is_const, getitem.
  rewrite bool_decide_true by done. by rewrite Hval, Hdt.
Qed.

(** The resolver only ever appends to the log, at most one record, at level
    ERROR, and it appends one exactly when it returns [None]: a weight that
    is found and an exception leave the log as it was. *)
Theorem get_weights_log node records r records' :
  get_weights_from_const_node ONNX_TO_NUMPY_DTYPE node records = (r, records') →
  ∃ new, records' = (records ++ new)%list ∧ (length new ≤ 1)%nat ∧
         Forall (λ rec, levelname rec = ERROR) new ∧
         (new ≠ [] ↔ r = Return None).
Proof.
  intros H.
  destruct (skip_identity node) as [p|e] eqn:Hskip.
  - apply skip_identity_chain in Hskip.
    rewrite (get_weights_chain _ _ _ _ Hskip) in H.
    case_bool_decide.
    + exists []. rewrite app_nil_r.
      destruct (get_tensor_value p); [destruct (getitem _ _)|];
        injection H as <- <-; repeat split; simpl; try done; auto.
    + injection H as <- <-. eexists. split; [reflexivity|].
      repeat split; simpl; try done; auto.
  - rewrite (get_weights_skip_Raise _ _ _ Hskip) in H.
    injection H as <- <-. exists []. rewrite app_nil_r.
    repeat split; simpl; try done; auto.
Qed.

(** An Identity is transparent for the value: resolving an Identity node
    gives what resolving its first input gives, the same tensor, dtype,
    failure and log, except that the weight found names the Identity node
    itself as its [node]. *)
Theorem get_weights_through_Identity node x records :
  type node = "Identity" → inputs node !! 0 = Some x →
  get_weights_from_const_node ONNX_TO_NUMPY_DTYPE node records =
    match get_weights_from_const_node ONNX_TO_NUMPY_DTYPE x records with
    | (Return (Some w), records') =>
        (Return (Some (RnnWeight.mk node (RnnWeight.value w)
                                    (RnnWeight.dtype w))), records')
    | other => other
    end.
Proof.
  intros Hty Hin.
  assert (Hskip : skip_identity node = skip_identity x).
  { rewrite (skip_identity_unfold node). rewrite bool_decide_true by done.
    destruct (inputs node) as [|? ?]; [discriminate|].
    simpl in Hin. by injection Hin as ->. }
  destruct (skip_identity x) as [p|e] eqn:Hx.
  - pose proof (skip_identity_chain _ _ Hx) as Hcx.
    pose proof (skip_identity_chain _ _ Hskip) as Hcn.
    rewrite (get_weights_chain _ _ _ _ Hcx), (get_weights_chain _ _ _ _ Hcn).
    case_bool_decide; [|reflexivity].
    destruct (get_tensor_value p); [|reflexivity].
    destruct (getitem _ _); reflexivity.
  - rewrite (get_weights_skip_Raise _ _ _ Hskip).
    rewrite (get_weights_skip_Raise _ _ _ Hx). reflexivity.
Qed.
End Resolver_more.

(** ** More on the time-major checks *)

(** [check_is_timemajor_transpose] never returns [False]: it returns
    [True], returns [None] or raises. *)
Theorem timemajor_never_False node :
  check_is_timemajor_transpose node ≠ Return (PyBool false).
Proof.
  destruct (decide (type node = "Transpose")) as [Hty|Hty];
    [|by rewrite (timemajor_not_Transpose _ Hty)].
  destruct (inputs node !! 1) as [perm_node|] eqn:Hin.
  - rewrite (timemajor_Transpose _ _ Hty Hin).
    destruct (is_const perm_node).
    + destruct (get_tensor_value perm_node); simpl; [|done].
      case_bool_decide; done.
    + destruct (check_is_unfolded_perm perm_node) as [[]|]; done.
  - unfold check_is_timemajor_transpose, index. by rewrite Hty, Hin.
Qed.

(** A Transpose with fewer than two inputs has no permutation input to
    look at: the check raises [IndexError]. *)
Theorem timemajor_short_Transpose node :
  type node = "Transpose" → (length (inputs node) < 2)%nat →
  check_is_timemajor_transpose node = Raise IndexError.
Proof.
  intros Hty Hlen. unfold check_is_timemajor_transpose, index.
  rewrite Hty. simpl. rewrite lookup_ge_None_2 by lia. reflexivity.
Qed.

Lemma timemajor_short_Transpose_witness :
  check_is_timemajor_transpose
    (mkNode "transpose" "Transpose" 1 None [Placeholder_node "x"])
    = Raise IndexError.
Proof.
  apply timemajor_short_Transpose; [reflexivity | simpl; lia].
Defined.



(** When the first operand is a constant other than [[1, 0]], the
    heuristic answers [False] and does not look at the second operand,
    however that one is built. *)
Theorem unfolded_perm_first_mismatch perm_node a b v :
  concat_of perm_node a b → const_equal a v → v ≠ [1; 0]%Z →
  check_is_unfolded_perm perm_node = Return false.
Proof.
  intros (Hty & axis & Hin) Ha Hv. unfold const_equal in Ha.
  unfold check_is_unfolded_perm. rewrite Hty, Hin. simpl. rewrite Ha. simpl.
  by rewrite bool_decide_true.
Qed.

Lemma unfolded_perm_first_mismatch_witness :
  check_is_unfolded_perm
    (ConcatV2_node (Const_node "concat/values_0" [0; 1]%Z)
                   (Placeholder_node "x")) = Return false.
Proof.
  apply (unfolded_perm_first_mismatch _
           (Const_node "concat/values_0" [0; 1]%Z) (Placeholder_node "x")
           [0; 1]%Z);
    [split; [reflexivity | eexists; reflexivity] | reflexivity | discriminate].
Defined.

(** ** make_onnx_node *)



Section MakeNode_facts.
Context {S V : Type} (make_name : string → S → string * S).

End MakeNode_facts.

(** ** The objects of the LSTM-cell pattern *)

(** Running the module body on the empty store gives [module_store], with
    [xc_pattern] at address 8 and [lstmcell_pattern] at address 20. *)
Lemma module_body_run :
  ∃ table, module_body [] = (Return (mkModule_vars 8 20 table), module_store).
Proof. eexists. vm_compute. reflexivity. Qed.

(** After the module body has run the store holds 21 pattern objects, all
    of them part of [lstmcell_pattern]; every input reference points to an
    object allocated earlier, so none dangles and none closes a cycle; no
    capture name is carried by two objects, although the pattern unfolds
    to a tree of 48 nodes in which the names of [xc_pattern] occur four
    times. *)
Theorem lstmcell_pattern_store :
  ∃ vars σ, module_body [] = (Return vars, σ) ∧
    length σ = 21%nat ∧
    store_wf σ ∧
    NoDup (capture_names σ) ∧
    Forall (λ r, reaches 10 σ r (lstmcell_pattern vars) = true)
           (seq 0 (length σ)) ∧
    (tree_size <$> unfold_pattern 11 σ (lstmcell_pattern vars)) = Some 48%nat ∧
    (length ∘ filter (λ capture, capture = "xh") ∘ tree_captures <$>
       unfold_pattern 11 σ (lstmcell_pattern vars)) = Some 4%nat.
Proof.
  destruct module_body_run as [table Hrun].
  exists (mkModule_vars 8 20 table), module_store.
  split; [exact Hrun|]. cbn [lstmcell_pattern].
  split; [reflexivity|]. split; [|split; [|split; [|split]]].
  - intros r p Hr. unfold deref in Hr.
    do 21 (destruct r as [|r];
           [injection Hr as <-; simpl; repeat constructor; lia|]).
    discriminate.
  - apply (bool_decide_unpack _). vm_compute. exact I.
  - apply (bool_decide_unpack _). vm_compute. exact I.
  - vm_compute. reflexivity.
  - vm_compute. reflexivity.
Qed.

(** ** The convolution test data *)

(** [get_conv_getdata] raises [ValueError("kind not known")] for every
    kind other than 0 and 1.  For kind 0 it yields 96 cases, the
    combinations of the four lists of [dims] in the order of
    [itertools.product] (the strides vary fastest, the padding slowest),
    each with its position as index.  For kind 1 it yields the 17 cases of
    [data] with their positions, and each of them takes its padding, input
    sizes, filter sizes and strides from the lists of [dims]. *)
Theorem get_conv_getdata_cases kind :
  (kind ≠ 0%Z → kind ≠ 1%Z →
     get_conv_getdata kind = Raise (ValueError "kind not known")) ∧
  (kind = 0%Z →
     ∃ cases, get_conv_getdata kind = Return cases ∧
       length cases = 96%nat ∧
       ∀ (pi ii fi si : nat) p i f s,
         ["SAME"; "VALID"] !! pi = Some p →
         [[32; 35; 35; 288]; [32; 17; 17; 1248]; [1; 28; 28; 3];
          [32; 8; 8; 2048]]%Z !! ii = Some i →
         [[1; 3; 3; 1]; [1; 2; 2; 1]; [1; 5; 5; 1]; [1; 1; 1; 1];
          [1; 5; 2; 1]; [1; 2; 5; 1]]%Z !! fi = Some f →
         [[1; 2; 2; 1]; [1; 1; 1; 1]]%Z !! si = Some s →
         cases !! (((pi * 4 + ii) * 6 + fi) * 2 + si)%nat
           = Some ((((pi * 4 + ii) * 6 + fi) * 2 + si)%nat, (p, i, f, s))) ∧
  (kind = 1%Z →
     ∃ cases, get_conv_getdata kind = Return cases ∧
       cases =
       ([(0%nat, ("SAME", [32; 35; 35; 288], [1; 3; 3; 1], [1; 2; 2; 1]));
        (1%nat, ("SAME", [32; 35; 35; 288], [1; 2; 2; 1], [1; 2; 2; 1]));
        (2%nat, ("SAME", [32; 35; 35; 288], [1; 1; 1; 1], [1; 1; 1; 1]));
        (3%nat, ("SAME", [32; 35; 35; 288], [1; 5; 2; 1], [1; 2; 2; 1]));
        (4%nat, ("SAME", [32; 35; 35; 288], [1; 2; 5; 1], [1; 2; 2; 1]));
        (5%nat, ("SAME", [32; 35; 35; 288], [1; 2; 5; 1], [1; 1; 1; 1]));
        (6%nat, ("SAME", [1; 28; 28; 3], [1; 3; 3; 1], [1; 2; 2; 1]));
        (7%nat, ("SAME", [1; 28; 28; 3], [1; 3; 3; 1], [1; 1; 1; 1]));
        (8%nat, ("SAME", [1; 28; 28; 3], [1; 2; 2; 1], [1; 2; 2; 1]));
        (9%nat, ("SAME", [1; 28; 28; 3], [1; 2; 2; 1], [1; 1; 1; 1]));
        (10%nat, ("SAME", [1; 28; 28; 3], [1; 5; 5; 1], [1; 2; 2; 1]));
        (11%nat, ("SAME", [1; 28; 28; 3], [1; 5; 5; 1], [1; 1; 1; 1]));
        (12%nat, ("SAME", [1; 28; 28; 3], [1; 5; 2; 1], [1; 2; 2; 1]));
        (13%nat, ("SAME", [32; 8; 8; 2048], [1; 3; 3; 1], [1; 2; 2; 1]));
        (14%nat, ("SAME", [32; 8; 8; 2048], [1; 3; 3; 1], [1; 1; 1; 1]));
        (15%nat, ("VALID", [32; 35; 35; 288], [1; 3; 3; 1], [1; 1; 1; 1]));
        (16%nat, ("VALID", [32; 35; 35; 288], [1; 2; 2; 1], [1; 2; 2; 1]))])%Z ∧
       ∀ idx p i f s, (idx, (p, i, f, s)) ∈ cases →
         p ∈ ["SAME"; "VALID"] ∧
         i ∈ [[32; 35; 35; 288]; [32; 17; 17; 1248]; [1; 28; 28; 3];
              [32; 8; 8; 2048]]%Z ∧
         f ∈ [[1; 3; 3; 1]; [1; 2; 2; 1]; [1; 5; 5; 1]; [1; 1; 1; 1];
              [1; 5; 2; 1]; [1; 2; 5; 1]]%Z ∧
         s ∈ [[1; 2; 2; 1]; [1; 1; 1; 1]]%Z).
Proof.
  split; [|split].
  - intros H0 H1. unfold get_conv_getdata. by rewrite !bool_decide_false.
  - intros ->. eexists. split; [reflexivity|].
    split; [vm_compute; reflexivity|].
    intros pi ii fi si p i f s Hp Hi Hf Hs.
    destruct pi as [|[|?]]; [| |done];
      (destruct ii as [|[|[|[|?]]]]; [| | | |done]);
      (destruct fi as [|[|[|[|[|[|?]]]]]]; [| | | | | |done]);
      (destruct si as [|[|?]]; [| |done]);
      simplify_eq/=; vm_compute; reflexivity.
  - intros ->. eexists. split; [reflexivity|].
    split; [vm_compute; reflexivity|].
    intros idx p i f s [n Hn]%list_elem_of_lookup.
    do 17 (destruct n as [|n];
           [vm_compute in Hn; simplify_eq; set_solver|]).
    done.
Qed.

(** ** Instances of the further properties *)

Lemma is_valid_outcomes_witness :
  (RnnProperties.is_valid
     (RnnProperties.mk (Some (Placeholder_node "x")) None ∅ ∅ false
                       None None None None) []).1 = TypeError.
Proof.
  apply (proj2 (proj1 (proj2 (proj2 (is_valid_outcomes
    (RnnProperties.mk (Some (Placeholder_node "x")) None ∅ ∅ false
                      None None None None) []))))).
  split; [eexists; reflexivity | reflexivity].
Defined.

Lemma get_weights_IndexError_iff_broken_witness :
  broken_chain (Identity_node "read" (mkNode "dangling" "Identity" 1 None [])) ∧
  ∃ records',
    get_weights_from_const_node sample_dtypes
      (Identity_node "read" (mkNode "dangling" "Identity" 1 None [])) []
    = (Raise IndexError, records').
Proof.
  assert (Hb : broken_chain
                 (Identity_node "read" (mkNode "dangling" "Identity" 1 None []))).
  { apply (broken_step _ (mkNode "dangling" "Identity" 1 None []));
      [reflexivity | reflexivity |].
    apply broken_end; reflexivity. }
  split; [exact Hb|].
  apply (proj2 (get_weights_IndexError_iff_broken sample_dtypes _ [])).
  exact Hb.
Defined.

Lemma get_weights_missing_dtype_KeyError_witness :
  get_weights_from_const_node sample_dtypes
    (Identity_node "read" (mkNode "w" "Const" 16 (Some [7]%Z) [])) []
  = (Raise KeyError, []).
Proof.
  apply (get_weights_missing_dtype_KeyError sample_dtypes _
           (mkNode "w" "Const" 16 (Some [7]%Z) []) [7]%Z).
  - apply skip_identity_chain. reflexivity.
  - reflexivity.
  - reflexivity.
  - vm_compute. reflexivity.
Defined.

Lemma get_weights_log_witness :
  ∃ new, [mkLogRecord ERROR
            "weight node seems not to be Const, skip, node name is x"]
         = ([] ++ new)%list ∧ (length new ≤ 1)%nat ∧
         Forall (λ rec, levelname rec = ERROR) new ∧
         (new ≠ [] ↔ Return None = Return (None : option (RnnWeight.t string))).
Proof.
  apply (get_weights_log sample_dtypes (Placeholder_node "x") []).
  vm_compute. reflexivity.
Defined.

Lemma get_weights_through_Identity_witness :
  get_weights_from_const_node sample_dtypes
    (Identity_node "read" kernel_const) []
  = (Return (Some (RnnWeight.mk (Identity_node "read" kernel_const)
                                [1; 2; 3]%Z "int32")), []).
Proof.
  rewrite (get_weights_through_Identity sample_dtypes
             (Identity_node "read" kernel_const) kernel_const []);
    [vm_compute; reflexivity | reflexivity | reflexivity].
Defined.


Lemma get_conv_getdata_cases_witness :
  get_conv_getdata 2 = Raise (ValueError "kind not known").
Proof.
  apply (proj1 (get_conv_getdata_cases 2)); discriminate.
Defined.
